(** * Kindle highlights to notes: the extraction core of [main.py]

    A shallow embedding of class [KindleHighlights] of [src/main.py]:
    [_create_enid], [_parse_books], [_extract_highlights] and
    [_get_all_highlights], with the string methods and the library calls
    they go through; then the object itself ([__init__], [__iter__],
    [__getitem__]), [main] and [now_plus_seconds].

    Reading of the source.  The file imports [urllib.parse] and calls
    [print] as a function: it loads under Python 3 only, and is embedded
    as Python 3 runs it.  Two of its expressions are left from Python 2.
    [urllib.parse(huri)] calls the module [urllib.parse], and a module is
    not callable: the call raises [TypeError].  [(...).next()] looks up
    the attribute [next] of a generator, which has none: the lookup raises
    [AttributeError], and the handler for [StopIteration] that surrounds
    it does not catch it.

    Strings are sequences of characters with code points below 256. *)

From Stdlib Require Import String Ascii List Bool Arith NArith ZArith Lia.
From stdpp Require Import base list.
Import ListNotations.

Local Open Scope string_scope.

(** ** Exceptions, standard output and the monad of the methods *)

(** The exceptions the embedded code can raise, with the message (or the
    key) they carry. *)
Inductive exn : Type :=
| StopIteration
| IndexError (msg : string)
| KeyError (key : string)
| AttributeError (msg : string)
| TypeError (msg : string)
| FileNotFoundError (path : string)
| IsADirectoryError (path : string)
| PermissionError (path : string)
| UnicodeDecodeError (msg : string).

Inductive outcome (A : Type) : Type :=
| Return (a : A)
| Raise (e : exn).
Arguments Return {A} a.
Arguments Raise {A} e.

(** A computation yields the lines it printed and how it ended. *)
Definition M (A : Type) : Type := (list string * outcome A)%type.

Definition ret {A} (a : A) : M A := ([], Return a).
Definition raise {A} (e : exn) : M A := ([], Raise e).
Definition print (line : string) : M unit := ([line], Return tt).

Definition bind {A B} (m : M A) (k : A -> M B) : M B :=
  match m with
  | (out, Return a) => let (out', r) := k a in ((out ++ out')%list, r)
  | (out, Raise e) => (out, Raise e)
  end.

(** [try: m except StopIteration: h] *)
Definition except_StopIteration {A} (m : M A) (h : M A) : M A :=
  match m with
  | (out, Raise StopIteration) => let (out', r) := h in ((out ++ out')%list, r)
  | _ => m
  end.

Notation "x <- m ;; k" := (bind m (fun x => k))
  (at level 100, m at next level, right associativity).
Notation "m ;;; k" := (bind m (fun _ => k))
  (at level 100, right associativity).

Definition stdout {A} (m : M A) : list string := fst m.
Definition result {A} (m : M A) : outcome A := snd m.

(** ** Python's [str] methods *)

Module Str.

(** [s.startswith(p)] *)
Fixpoint startswith (p s : string) : bool :=
  match p, s with
  | EmptyString, _ => true
  | String _ _, EmptyString => false
  | String a p', String b s' => Ascii.eqb a b && startswith p' s'
  end.

(** [p in s] *)
Fixpoint contains (p s : string) : bool :=
  startswith p s ||
  match s with
  | EmptyString => false
  | String _ s' => contains p s'
  end.

(** [c in s] for a character *)
Fixpoint has_char (c : ascii) (s : string) : bool :=
  match s with
  | EmptyString => false
  | String b s' => Ascii.eqb b c || has_char c s'
  end.

(** [s.split(sep)] for a separator of one character: never empty. *)
Fixpoint split (sep : ascii) (s : string) : list string :=
  match s with
  | EmptyString => [EmptyString]
  | String c s' =>
      if Ascii.eqb c sep then EmptyString :: split sep s'
      else match split sep s' with
           | w :: ws => String c w :: ws
           | [] => [String c EmptyString]
           end
  end.

(** [s.replace(old, new)] for a non-empty [old]: one pass from the left,
    occurrences do not overlap.  [skip] counts the characters of a matched
    occurrence still to be dropped. *)
Fixpoint replace_from (skip : nat) (old new s : string) : string :=
  match s with
  | EmptyString => EmptyString
  | String c s' =>
      match skip with
      | S k => replace_from k old new s'
      | O =>
          if startswith old s
          then new ++ replace_from (String.length old - 1) old new s'
          else String c (replace_from 0 old new s')
      end
  end.

Definition replace (old new s : string) : string := replace_from 0 old new s.

(** [c.isspace()] on code points below 256. *)
Definition isspace (c : ascii) : bool :=
  let n := N_of_ascii c in
  ((9 <=? n) && (n <=? 13) || (28 <=? n) && (n <=? 32)
   || (n =? 133) || (n =? 160))%N.

Fixpoint lstrip (s : string) : string :=
  match s with
  | EmptyString => EmptyString
  | String c s' => if isspace c then lstrip s' else s
  end.

Fixpoint rstrip (s : string) : string :=
  match s with
  | EmptyString => EmptyString
  | String c s' =>
      match rstrip s' with
      | EmptyString => if isspace c then EmptyString else String c EmptyString
      | r => String c r
      end
  end.

(** [s.strip()] *)
Definition strip (s : string) : string := rstrip (lstrip s).

(** [''.join(ls)] *)
Definition join (ls : list string) : string := String.concat "" ls.

(** The longest prefix whose characters satisfy [p], and the rest. *)
Fixpoint span (p : ascii -> bool) (s : string) : string * string :=
  match s with
  | EmptyString => (EmptyString, EmptyString)
  | String c s' =>
      if p c then let (a, b) := span p s' in (String c a, b)
      else (EmptyString, s)
  end.

Fixpoint forallb (p : ascii -> bool) (s : string) : bool :=
  match s with
  | EmptyString => true
  | String c s' => p c && forallb p s'
  end.

(** [c.lower()] on code points below 256: the letters [A]-[Z] and the
    capital letters of Latin-1. *)
Definition lower_char (c : ascii) : ascii :=
  let n := N_of_ascii c in
  if ((65 <=? n) && (n <=? 90)
      || (192 <=? n) && (n <=? 222) && negb (n =? 215))%N
  then ascii_of_N (n + 32) else c.

Fixpoint lower (s : string) : string :=
  match s with
  | EmptyString => EmptyString
  | String c s' => String (lower_char c) (lower s')
  end.

End Str.

(** [ls[i]] *)
Definition getitem {A} (ls : list A) (i : nat) : M A :=
  match ls !! i with
  | Some x => ret x
  | None => raise (IndexError "list index out of range")
  end.

(** ** [urllib.parse]

    The file binds [urllib.parse] with [import urllib.parse]: the name is
    the module.  [_create_enid] calls it. *)

Module urllib.

(** What [urlparse] of that module returns; [_create_enid] reads the
    attribute [query] of the value of its call. *)
Record ParseResult : Type := mkParseResult {
  scheme : string;
  netloc : string;
  path : string;
  params : string;
  query : string;
  fragment : string
}.

(** [urllib.parse(huri)]: a call of the module itself.  A module has no
    [__call__], so the call raises whatever [huri] is, and yields no
    value whose [query] could be read. *)
Definition parse (huri : string) : M ParseResult :=
  raise (TypeError "'module' object is not callable").

End urllib.

(** ** [KindleHighlights._create_enid] *)

(** The two assignments and the [return] as they are written: [asin] is
    to be the text after the first [=] of the second [&]-field of the
    query, [loc] that of the third field. *)
Definition _create_enid (huri : string) : M string :=
  u <- urllib.parse huri ;;
  f <- getitem (Str.split "&" (urllib.query u)) 1 ;;
  asin <- getitem (Str.split "=" f) 1 ;;
  u <- urllib.parse huri ;;
  f <- getitem (Str.split "&" (urllib.query u)) 2 ;;
  loc <- getitem (Str.split "=" f) 1 ;;
  ret (asin ++ loc).


(** ** [KindleHighlights._parse_books] *)

(** A literal of the source, written here with ['] where the source has
    the double quote. *)
Fixpoint dq (s : string) : string :=
  match s with
  | EmptyString => EmptyString
  | String c s' => String (if Ascii.eqb c "'" then ascii_of_N 34 else c) (dq s')
  end.

Definition newline : ascii := Eval cbv in ascii_of_N 10.

Definition book_header : string :=
  Eval cbv in dq "class='bookMain yourHighlightsHeader'".
Definition highlight_column : string :=
  Eval cbv in dq "<div class='highlightColumn'>".
Definition all_books_div : string :=
  Eval cbv in dq "<div id='allHighlightedBooks'>".
Definition not_found_message : string :=
  Eval cbv in dq "Did not find DIV id='allHighlightedBooks'".

(** [re.search('.*' + lit + '.*', line)] for a literal [lit]: the search
    may start at an occurrence of [lit] with both [.*] empty, so it
    succeeds exactly when [lit] occurs in [line]. *)
Definition re_search_within (lit line : string) : bool := Str.contains lit line.

(** The first loop: [markup[i]] is rewritten in place for every index [i]
    whose line holds the book header. *)
Definition add_hierarchy_step (markup : list string) (i : nat) : list string :=
  match markup !! i with
  | Some line =>
      if Str.contains book_header line
      then <[i := "</div>" ++ line ++ highlight_column]> markup
      else markup
  | None => markup
  end.

Definition add_hierarchy (markup : list string) : list string :=
  fold_left add_hierarchy_step (seq 0 (List.length markup)) markup.

(** [g.next()] for the generator
    [g = (i for i, line in enumerate(markup) if p(line))].  A generator is
    advanced with [next(g)] and has no attribute [next]: the lookup raises
    before the generator runs, so [p] is applied to no line. *)
Definition generator_dot_next {A} (p : A -> bool) (ls : list A) : M nat :=
  raise (AttributeError "'generator' object has no attribute 'next'").

Definition _parse_books (html : string) : M string :=
  let markup := Str.split newline html in
  let markup := add_hierarchy markup in
  all_hl_div <-
    except_StopIteration
      (generator_dot_next (re_search_within all_books_div) markup)
      (print not_found_message ;;; raise StopIteration) ;;
  line <- getitem markup all_hl_div ;;
  let markup := <[all_hl_div := Str.replace "</div>" "" line]> markup in
  ret (Str.join markup).

(** ** The parsed document: BeautifulSoup's tree *)

Module bs4.

(** A tag with its name, its attributes in the order they were written
    and its children, or a text node.  The value of [class] is kept as
    written; it is cut into its classes where it is matched. *)
#[warnings="-register-all"]
Inductive PageElement : Type :=
| Tag (name : string) (attrs : list (string * string)) (contents : list PageElement)
| NavigableString (s : string).

(** An element met during a search, with the sibling that follows it. *)
Record Located : Type := mkLocated {
  elem : PageElement;
  nextSibling : option PageElement
}.

(** [attrs.get(key)] *)
Fixpoint attr_get (key : string) (attrs : list (string * string)) : option string :=
  match attrs with
  | [] => None
  | (k, v) :: attrs' => if String.eqb k key then Some v else attr_get key attrs'
  end.

(** [re.findall(r'\S+', value)]: [w] is the word being read. *)
Fixpoint words_from (w : string) (s : string) : list string :=
  match s with
  | EmptyString => match w with EmptyString => [] | _ => [w] end
  | String c s' =>
      if Str.isspace c
      then match w with
           | EmptyString => words_from EmptyString s'
           | _ => w :: words_from EmptyString s'
           end
      else words_from (w ++ String c EmptyString) s'
  end.

Definition words (s : string) : list string := words_from EmptyString s.

(** A search for the class [cls] matches a tag when one of its classes
    is [cls], or its classes joined by single spaces are. *)
Definition has_class (cls : string) (attrs : list (string * string)) : bool :=
  match attr_get "class" attrs with
  | Some v =>
      existsb (String.eqb cls) (words v) || String.eqb (String.concat " " (words v)) cls
  | None => false
  end.

(** [find_all(name, cls)] keeps the tags called [name] of class [cls]. *)
Definition matches (name cls : string) (e : PageElement) : bool :=
  match e with
  | Tag n attrs _ => String.eqb n name && has_class cls attrs
  | NavigableString _ => false
  end.

(** The descendants of an element in document order. *)
Fixpoint descendants (e : PageElement) : list Located :=
  match e with
  | Tag _ _ contents =>
      (fix walk (cs : list PageElement) : list Located :=
         match cs with
         | [] => []
         | c :: rest =>
             (mkLocated c (head rest) :: descendants c ++ walk rest)%list
         end) contents
  | NavigableString _ => []
  end.

Definition find_all (name cls : string) (e : PageElement) : list Located :=
  List.filter (fun l => matches name cls (elem l)) (descendants e).

(** [find] is the first result of [find_all], or [None]. *)
Definition find (name cls : string) (e : PageElement) : option Located :=
  head (find_all name cls e).

(** [.string]: the text node itself; for a tag, the [.string] of its only
    child, and [None] when it has no child or several. *)
Fixpoint string_of (e : PageElement) : option string :=
  match e with
  | NavigableString s => Some s
  | Tag _ _ [c] => string_of c
  | Tag _ _ _ => None
  end.

End bs4.

Import bs4.

(** ** [KindleHighlights._extract_highlights] *)

(** The dict appended for a highlight; [text] is [None] or a string. *)
Record highlight_dict : Type := mkHighlight {
  book_title : string;
  book_author : string;
  text : option string;
  link : string;
  id : string
}.

Definition no_attribute (cls attr : string) : exn :=
  AttributeError ("'" ++ cls ++ "' object has no attribute '" ++ attr ++ "'").

(** [for x in xs: body], threading the state the body updates. *)
Fixpoint for_each {A S} (xs : list A) (body : A -> S -> M S) (s : S) : M S :=
  match xs with
  | [] => ret s
  | x :: xs' => s' <- body x s ;; for_each xs' body s'
  end.

(** [book.find('span', 'title').string.strip()] *)
Definition title_of (book : PageElement) : M string :=
  match find "span" "title" book with
  | None => raise (no_attribute "NoneType" "string")
  | Some t =>
      match string_of (elem t) with
      | None => raise (no_attribute "NoneType" "strip")
      | Some s => ret (Str.strip s)
      end
  end.

(** [s.replace('by', '').strip()] *)
Definition author_text (s : string) : string := Str.strip (Str.replace "by" "" s).

(** [book.find('span', 'author').string.replace('by', '').strip()] *)
Definition author_of (book : PageElement) : M string :=
  match find "span" "author" book with
  | None => raise (no_attribute "NoneType" "string")
  | Some a =>
      match string_of (elem a) with
      | None => raise (no_attribute "NoneType" "replace")
      | Some s => ret (author_text s)
      end
  end.

(** [highlight.nextSibling.attrs['href']] *)
Definition href_of_next (highlight : Located) : M string :=
  match nextSibling highlight with
  | None => raise (no_attribute "NoneType" "attrs")
  | Some (NavigableString _) => raise (no_attribute "NavigableString" "attrs")
  | Some (Tag _ attrs _) =>
      match attr_get "href" attrs with
      | Some v => ret v
      | None => raise (KeyError "href")
      end
  end.

(** The [dict(...)] built for a highlight: its arguments in order. *)
Definition highlight_entry (title author : string) (highlight : Located)
  : M highlight_dict :=
  let text := string_of (elem highlight) in
  link <- href_of_next highlight ;;
  href <- href_of_next highlight ;;
  id <- _create_enid href ;;
  ret {| book_title := title; book_author := author; text := text;
         link := link; id := id |}.

(** The body of [for book in books]. *)
Definition extract_book (book : Located) (hdicts : list highlight_dict)
  : M (list highlight_dict) :=
  book_title <- title_of (elem book) ;;
  book_author <- author_of (elem book) ;;
  let book_highlights := find_all "span" "highlight" (elem book) in
  for_each book_highlights
    (fun highlight hdicts =>
       d <- highlight_entry book_title book_author highlight ;;
       ret (hdicts ++ [d])%list)
    hdicts.

Section Pipeline.

(** The two collaborators of the class: the HTML parser behind
    [BeautifulSoup(html, 'html.parser')], giving the top-level nodes of
    the document, and the file system: what [open(path, 'r').read()]
    gives for a path, the text of the file or the exception of [open] or
    of [read]. *)
Variable html_parser : string -> list PageElement.
Variable files : string -> outcome string.

Definition BeautifulSoup (html : string) : PageElement :=
  Tag "[document]" [] (html_parser html).

Definition _extract_highlights (html : string) : M (list highlight_dict) :=
  let hdicts := [] in
  let soup := BeautifulSoup html in
  let books := find_all "div" "bookMain" soup in
  for_each books extract_book hdicts.

(** [open(html_file, 'r').read()] *)
Definition open_read (html_file : string) : M string :=
  match files html_file with
  | Return doc => ret doc
  | Raise e => raise e
  end.

Definition _get_all_highlights (html_file : string) : M (list highlight_dict) :=
  html_doc <- open_read html_file ;;
  parsed <- _parse_books html_doc ;;
  _extract_highlights parsed.

End Pipeline.

(** ** [_extract_highlights] as a subclass inherits it

    The loops reach the identifier through [self._create_enid]: the method
    is looked up on the object, so a subclass that overrides
    [_create_enid] runs these same loops with its own method.  They are
    given here for whatever method is bound to [self._create_enid];
    [highlight_entry], [extract_book] and [_extract_highlights] above are
    the case where it is [_create_enid] of [KindleHighlights] itself. *)

Section Inherited.

Variable create_enid : string -> M string.

Definition highlight_entry_with (title author : string) (highlight : Located)
  : M highlight_dict :=
  let text := string_of (elem highlight) in
  link <- href_of_next highlight ;;
  href <- href_of_next highlight ;;
  id <- create_enid href ;;
  ret {| book_title := title; book_author := author; text := text;
         link := link; id := id |}.

Definition extract_book_with (book : Located) (hdicts : list highlight_dict)
  : M (list highlight_dict) :=
  book_title <- title_of (elem book) ;;
  book_author <- author_of (elem book) ;;
  let book_highlights := find_all "span" "highlight" (elem book) in
  for_each book_highlights
    (fun highlight hdicts =>
       d <- highlight_entry_with book_title book_author highlight ;;
       ret (hdicts ++ [d])%list)
    hdicts.

Variable html_parser : string -> list PageElement.

Definition _extract_highlights_with (html : string) : M (list highlight_dict) :=
  let hdicts := [] in
  let soup := BeautifulSoup html_parser html in
  let books := find_all "div" "bookMain" soup in
  for_each books extract_book_with hdicts.

End Inherited.

(** ** A model of the parser on the markup of the export

    [BeautifulSoup(html, 'html.parser')] on documents made of start tags
    with attributes in single or double quotes, end tags and text: no
    comments, declarations, character references, [script] or [style]
    content, and no [>] inside a tag.  Names are lower-cased, a repeated
    attribute keeps its last value, an end tag closes every tag opened
    since the nearest open tag of its name and is dropped when there is
    none, a void element has no content, text made of ASCII blanks only
    becomes one blank, and whatever is open at the end is closed there.
    It is used to run the pipeline on concrete documents; the properties
    of the extractor are stated for every parser. *)

Module HTMLParser.

Inductive token : Type :=
| StartTag (name : string) (attrs : list (string * string))
| EndTag (name : string)
| Data (s : string).

(** Reading the attributes of a start tag. *)
Inductive attr_state : Type :=
| Between
| InName (name : string)
| AfterEq (name : string)
| InQuoted (name : string) (quote : ascii) (value : string)
| InBare (name : string) (value : string).

Fixpoint set_attr (k v : string) (attrs : list (string * string))
  : list (string * string) :=
  match attrs with
  | [] => [(k, v)]
  | (k', v') :: attrs' =>
      if String.eqb k' k then (k, v) :: attrs' else (k', v') :: set_attr k v attrs'
  end.

Definition snoc (s : string) (c : ascii) : string := s ++ String c EmptyString.

Fixpoint read_attrs (st : attr_state) (attrs : list (string * string)) (s : string)
  : list (string * string) :=
  match s with
  | EmptyString =>
      match st with
      | Between => attrs
      | InName n | AfterEq n => set_attr (Str.lower n) EmptyString attrs
      | InQuoted n _ v | InBare n v => set_attr (Str.lower n) v attrs
      end
  | String c s' =>
      match st with
      | Between =>
          if Str.isspace c then read_attrs Between attrs s'
          else read_attrs (InName (String c EmptyString)) attrs s'
      | InName n =>
          if Ascii.eqb c "=" then read_attrs (AfterEq n) attrs s'
          else if Str.isspace c
               then read_attrs Between (set_attr (Str.lower n) EmptyString attrs) s'
               else read_attrs (InName (snoc n c)) attrs s'
      | AfterEq n =>
          if Ascii.eqb c "'" || Ascii.eqb c (ascii_of_N 34)
          then read_attrs (InQuoted n c EmptyString) attrs s'
          else if Str.isspace c then read_attrs (AfterEq n) attrs s'
               else read_attrs (InBare n (String c EmptyString)) attrs s'
      | InQuoted n quote v =>
          if Ascii.eqb c quote
          then read_attrs Between (set_attr (Str.lower n) v attrs) s'
          else read_attrs (InQuoted n quote (snoc v c)) attrs s'
      | InBare n v =>
          if Str.isspace c
          then read_attrs Between (set_attr (Str.lower n) v attrs) s'
          else read_attrs (InBare n (snoc v c)) attrs s'
      end
  end.

(** The token of the text between [<] and [>]. *)
Definition tag_token (raw : string) : token :=
  match raw with
  | String "/" name => EndTag (Str.lower (Str.strip name))
  | _ =>
      let (name, rest) := Str.span (fun c => negb (Str.isspace c)) raw in
      StartTag (Str.lower name) (read_attrs Between [] rest)
  end.

Inductive lex_state : Type :=
| InData (s : string)
| InTag (raw : string).

Definition data_token (s : string) : list token :=
  match s with EmptyString => [] | _ => [Data s] end.

Fixpoint tokens (st : lex_state) (s : string) : list token :=
  match s with
  | EmptyString =>
      match st with
      | InData d => data_token d
      | InTag raw => [Data (String "<" raw)]
      end
  | String c s' =>
      match st with
      | InData d =>
          if Ascii.eqb c "<" then (data_token d ++ tokens (InTag EmptyString) s')%list
          else tokens (InData (snoc d c)) s'
      | InTag raw =>
          if Ascii.eqb c ">" then tag_token raw :: tokens (InData EmptyString) s'
          else tokens (InTag (snoc raw c)) s'
      end
  end.

(** An open tag: its name, attributes and the children read so far,
    last first. *)
Record frame : Type := mkFrame {
  f_name : string;
  f_attrs : list (string * string);
  f_children : list PageElement
}.

Definition add_child (e : PageElement) (stack : list frame) : list frame :=
  match stack with
  | f :: below => mkFrame (f_name f) (f_attrs f) (e :: f_children f) :: below
  | [] => []
  end.

Definition close_frame (pending : list PageElement) (f : frame) : PageElement :=
  Tag (f_name f) (f_attrs f) (rev (pending ++ f_children f)).

(** [_popToTag(name)]: close the frames down to the nearest one called
    [name]; [pending] is the tag just closed, to be added to the next. *)
Fixpoint pop_to (name : string) (pending : list PageElement) (stack : list frame)
  : list frame :=
  match stack with
  | [] => []
  | f :: below =>
      if String.eqb (f_name f) name
      then add_child (close_frame pending f) below
      else pop_to name [close_frame pending f] below
  end.

(** The frames above the document itself. *)
Definition open_tags (stack : list frame) : list frame := removelast stack.

Definition void_elements : list string :=
  ["area"; "base"; "br"; "col"; "embed"; "hr"; "img"; "input"; "keygen";
   "link"; "menuitem"; "meta"; "param"; "source"; "track"; "wbr";
   "basefont"; "bgsound"; "command"; "frame"; "image"; "isindex";
   "nextid"; "spacer"].

Definition ascii_blank (c : ascii) : bool :=
  let n := N_of_ascii c in
  ((n =? 32) || (n =? 10) || (n =? 9) || (n =? 12) || (n =? 13))%N.

Definition preserves_whitespace (stack : list frame) : bool :=
  existsb (fun f => String.eqb (f_name f) "pre" || String.eqb (f_name f) "textarea")
          stack.

(** [endData]: text of ASCII blanks only shrinks to one blank. *)
Definition text_node (stack : list frame) (s : string) : PageElement :=
  if Str.forallb ascii_blank s && negb (preserves_whitespace stack)
  then NavigableString
         (if Str.has_char newline s then String newline EmptyString else " ")
  else NavigableString s.

Definition feed (stack : list frame) (t : token) : list frame :=
  match t with
  | StartTag name attrs =>
      if existsb (String.eqb name) void_elements
      then add_child (Tag name attrs []) stack
      else mkFrame name attrs [] :: stack
  | EndTag name =>
      if existsb (fun f => String.eqb (f_name f) name) (open_tags stack)
      then pop_to name [] stack
      else stack
  | Data s => add_child (text_node stack s) stack
  end.

(** At the end of the input every open tag is closed. *)
Fixpoint close_all (pending : list PageElement) (stack : list frame)
  : list PageElement :=
  match stack with
  | [] => rev pending
  | [document] => rev (pending ++ f_children document)
  | f :: below => close_all [close_frame pending f] below
  end.

Definition parse (html : string) : list PageElement :=
  close_all []
    (fold_left feed (tokens (InData EmptyString) html)
               [mkFrame "[document]" [] []]).

End HTMLParser.

(** ** Vocabulary of the statements *)

(** The two exceptions of the calls left from Python 2. *)
Definition module_not_callable : exn :=
  TypeError "'module' object is not callable".
Definition generator_has_no_next : exn :=
  AttributeError "'generator' object has no attribute 'next'".

(** What the first loop of [_parse_books] makes of one line. *)
Definition rewrite_line (line : string) : string :=
  if Str.contains book_header line
  then "</div>" ++ line ++ highlight_column
  else line.

(** ** Sample documents *)

(** The link of a highlight at location [loc] of the book [asin]. *)
Definition kindle_link (asin loc : string) : string :=
  "kindle://book?action=open&asin=" ++ asin ++ "&location=" ++ loc.

(** A page that is not an export. *)
Definition not_an_export : string := Eval cbv in dq
"<html>
<body><div id='content'>nothing here</div></body>
</html>".

(** A marker line that closes two [div]s. *)
Definition two_closing_tags : string := Eval cbv in dq
"<div id='allHighlightedBooks'></div><p>no books</p></div>".

(** One file holding [doc] under the name [myhighlights.html]. *)
Definition one_file (doc : string) (path : string) : outcome string :=
  if String.eqb path "myhighlights.html" then Return doc
  else Raise (FileNotFoundError path).

(** An export of two books as it is meant to be after one pass of
    [_parse_books], on one line: the first book with two highlights, the
    second with one, every book's container holding its highlights. *)
Definition normalized_two_books : string := Eval cbv in dq
("<div id='allHighlightedBooks'><div class='bookMain yourHighlightsHeader'>"
 ++ "<div class='highlightColumn'>"
 ++ "<span class='title'>T1</span><span class='author'>by A1</span></div>"
 ++ "<span class='highlight'>h1</span>"
 ++ "<a href='kindle://book?action=open&asin=B1&location=1'>x</a>"
 ++ "<span class='highlight'>h2</span>"
 ++ "<a href='kindle://book?action=open&asin=B1&location=2'>x</a>"
 ++ "</div><div class='bookMain yourHighlightsHeader'>"
 ++ "<div class='highlightColumn'>"
 ++ "<span class='title'>T2</span><span class='author'>by A2</span></div>"
 ++ "<span class='highlight'>h3</span>"
 ++ "<a href='kindle://book?action=open&asin=B2&location=3'>x</a></div>").


(** Two exports with a book that has no title: the only book, and the
    second book after one that has a title. *)
Definition untitled_first : string := Eval cbv in dq
("<div id='allHighlightedBooks'><div class='bookMain yourHighlightsHeader'>"
 ++ "<span class='author'>by A1</span></div>").

Definition untitled_second : string := Eval cbv in dq
("<div id='allHighlightedBooks'><div class='bookMain yourHighlightsHeader'>"
 ++ "<span class='title'>T1</span><span class='author'>by A1</span></div>"
 ++ "<div class='bookMain yourHighlightsHeader'>"
 ++ "<span class='author'>by A2</span></div>").

(** A book whose first highlight has no text node and whose second is a
    single blank. *)
Definition blank_highlights : string := Eval cbv in dq
("<div id='allHighlightedBooks'><div class='bookMain yourHighlightsHeader'>"
 ++ "<span class='title'>T1</span><span class='author'>by A1</span>"
 ++ "<span class='highlight'></span>"
 ++ "<a href='kindle://book?action=open&asin=B1&location=1'>x</a>"
 ++ "<span class='highlight'> </span>"
 ++ "<a href='kindle://book?action=open&asin=B1&location=2'>x</a></div>").

(** A book without highlights, then a book whose only highlight is its
    last child: no link follows. *)
Definition highlight_without_link : string := Eval cbv in dq
("<div id='allHighlightedBooks'><div class='bookMain yourHighlightsHeader'>"
 ++ "<span class='title'>T1</span><span class='author'>by A1</span></div>"
 ++ "<div class='bookMain yourHighlightsHeader'>"
 ++ "<span class='title'>T2</span><span class='author'>by A2</span>"
 ++ "<span class='highlight'>h1</span></div>").



(** A book element with a title and an author and no highlight. *)
Definition without_highlights (book : Located) : Prop :=
  (exists title, title_of (elem book) = ret title) /\
  (exists author, author_of (elem book) = ret author) /\
  find_all "span" "highlight" (elem book) = [].

(** The first and the last character of a text. *)
Definition first_char (s : string) : option ascii :=
  match s with
  | EmptyString => None
  | String c _ => Some c
  end.

Fixpoint last_char (s : string) : option ascii :=
  match s with
  | EmptyString => None
  | String c EmptyString => Some c
  | String _ s' => last_char s'
  end.

(** [s] neither starts nor ends with white space. *)
Definition trimmed (s : string) : Prop :=
  (forall c, first_char s = Some c -> Str.isspace c = false) /\
  (forall c, last_char s = Some c -> Str.isspace c = false).

(** ** Vocabulary for an overriding [_create_enid] *)

(** A method that takes the link itself as the identifier. *)
Definition link_as_id (huri : string) : M string := ret huri.

(** The record of a highlight under [link_as_id]. *)
Definition entry (title author text asin loc : string) : highlight_dict :=
  {| book_title := title; book_author := author; text := Some text;
     link := kindle_link asin loc; id := kindle_link asin loc |}.



(** ** The object: [KindleHighlights.__init__], [__iter__], [__getitem__]
       and [main] *)

(** What a run does besides returning: the lines it prints and the calls
    it makes on a logger.  Whether a logged message is shown is up to the
    configuration of [logging]. *)
Inductive event : Type :=
| Printed (line : string)
| Logged (logger level message : string).

Definition W (A : Type) : Type := (list event * outcome A)%type.

Definition W_ret {A} (a : A) : W A := ([], Return a).

Definition W_bind {A B} (m : W A) (k : A -> W B) : W B :=
  match m with
  | (ev, Return a) => let (ev', r) := k a in ((ev ++ ev')%list, r)
  | (ev, Raise e) => (ev, Raise e)
  end.

(** A method of the extraction core run inside the program. *)
Definition lift {A} (m : M A) : W A := (map Printed (stdout m), result m).

(** [logging.getLogger(name).info(message)] *)
Definition logger_info (name message : string) : W unit :=
  ([Logged name "INFO" message], Return tt).

(** An instance: its highlights and the name of its logger. *)
Record KindleHighlights : Type := mkKindleHighlights {
  _highlights : list highlight_dict;
  logger : string
}.

Section Program.

Variable html_parser : string -> list PageElement.
Variable files : string -> outcome string.

Definition __init__ (html_file : string) : W KindleHighlights :=
  W_bind (lift (_get_all_highlights html_parser files html_file)) (fun highlights =>
  let logger := "whispernote" in
  W_bind (logger_info logger "Initializing Kindle Highlights") (fun _ =>
  W_ret {| _highlights := highlights; logger := logger |})).

(** [main]: the token is read, then the object is built from the file
    named by a literal; both values are dropped. *)
Definition main : W unit :=
  W_bind (lift (open_read files "en_auth.txt")) (fun auth_token =>
  W_bind (__init__ "https://read.amazon.com/notebook") (fun highlights =>
  W_ret tt)).

End Program.





(** The token under [en_auth.txt] and the export under the name [main]
    reads. *)
Definition two_files (token doc : string) (path : string) : outcome string :=
  if String.eqb path "en_auth.txt" then Return token
  else if String.eqb path "https://read.amazon.com/notebook" then Return doc
  else Raise (FileNotFoundError path).

(** Two readings end the same way: both give a text, or both raise the
    same exception. *)
Definition same_ending (a b : outcome string) : Prop :=
  match a, b with
  | Return _, Return _ => True
  | Raise e, Raise e' => e = e'
  | _, _ => False
  end.

(** ** [now_plus_seconds]

    [datetime] arithmetic on a naive date and time, the date kept as its
    ordinal ([toordinal()]: 1 for 0001-01-01, 3652059 for 9999-12-31).
    The clock read by [datetime.now()] is an argument, and [seconds] is
    an integer. *)

Module datetime.

Record datetime : Type := mkDatetime {
  ordinal : Z;
  hour : Z;
  minute : Z;
  second : Z;
  microsecond : Z
}.

Definition MAXORDINAL : Z := 3652059.

(** The two [OverflowError]s of the module: a [timedelta] of more than
    999999999 days, and a date outside the years 1 to 9999. *)
Inductive OverflowError : Type :=
| DaysOutOfRange
| DateOutOfRange.

(** [timedelta(seconds=seconds)]: days and seconds, the seconds within
    one day. *)
Definition timedelta (seconds : Z) : OverflowError + (Z * Z) :=
  let days := (seconds / 86400)%Z in
  if (999999999 <? Z.abs days)%Z then inl DaysOutOfRange
  else inr (days, (seconds mod 86400)%Z).

(** [now + delta] *)
Definition add (now : datetime) (delta : Z * Z) : OverflowError + datetime :=
  let (days, seconds) := delta in
  let s := (hour now * 3600 + minute now * 60 + second now + seconds)%Z in
  let day := (ordinal now + days + s / 86400)%Z in
  let t := (s mod 86400)%Z in
  if ((1 <=? day) && (day <=? MAXORDINAL))%Z
  then inr {| ordinal := day;
              hour := (t / 3600)%Z;
              minute := (t mod 3600 / 60)%Z;
              second := (t mod 3600 mod 60)%Z;
              microsecond := microsecond now |}
  else inl DateOutOfRange.

Definition digit (n : Z) : ascii := ascii_of_N (48 + Z.to_N n).

(** [%02d] for a number below 100. *)
Definition two_digits (n : Z) : string :=
  String (digit (n / 10)) (String (digit (n mod 10)) EmptyString).

(** [t.time().strftime('%H:%M:%S')] *)
Definition strftime_HMS (t : datetime) : string :=
  two_digits (hour t) ++ ":" ++ two_digits (minute t) ++ ":" ++ two_digits (second t).

End datetime.

Definition now_plus_seconds (now : datetime.datetime) (seconds : Z)
  : datetime.OverflowError + string :=
  match datetime.timedelta seconds with
  | inl e => inl e
  | inr delta =>
      match datetime.add now delta with
      | inl e => inl e
      | inr future => inr (datetime.strftime_HMS future)
      end
  end.

(** A date and time [datetime.now()] can return. *)
Definition valid_datetime (t : datetime.datetime) : Prop :=
  (1 <= datetime.ordinal t <= datetime.MAXORDINAL /\
   0 <= datetime.hour t < 24 /\ 0 <= datetime.minute t < 60 /\
   0 <= datetime.second t < 60 /\ 0 <= datetime.microsecond t < 1000000)%Z.

(** Seconds since midnight. *)
Definition time_of_day (t : datetime.datetime) : Z :=
  (datetime.hour t * 3600 + datetime.minute t * 60 + datetime.second t)%Z.

Definition read_digit (c : ascii) : option Z :=
  let n := N_of_ascii c in
  if ((48 <=? n) && (n <=? 57))%N then Some (Z.of_N (n - 48)) else None.

(** The seconds since midnight a text [HH:MM:SS] stands for. *)
Definition read_clock (s : string) : option Z :=
  match s with
  | String h1 (String h2 (String ":" (String m1 (String m2 (String ":"
      (String s1 (String s2 EmptyString))))))) =>
      match read_digit h1, read_digit h2, read_digit m1, read_digit m2,
            read_digit s1, read_digit s2 with
      | Some a, Some b, Some c, Some d, Some e, Some f =>
          Some ((10 * a + b) * 3600 + (10 * c + d) * 60 + (10 * e + f))%Z
      | _, _, _, _, _, _ => None
      end
  | _ => None
  end.

(** Five seconds to midnight on the first day of 2026. *)
Definition late_evening : datetime.datetime :=
  datetime.mkDatetime 739617 23 59 55 0.

(** * Properties *)

(** ** The monad *)

Lemma bind_ret_l {A B} (a : A) (k : A -> M B) : bind (ret a) k = k a.
Proof. unfold bind, ret. destruct (k a) as [out r]. reflexivity. Qed.

Lemma bind_raise {A B} (e : exn) (k : A -> M B) : bind (raise e) k = raise e.
Proof. reflexivity. Qed.

Lemma bind_ext {A B} (m : M A) (k k' : A -> M B) :
  (forall a, k a = k' a) -> bind m k = bind m k'.
Proof. intros H. destruct m as [o [a | e]]; simpl; [rewrite H |]; reflexivity. Qed.

Lemma bind_assoc {A B C} (m : M A) (k : A -> M B) (k' : B -> M C) :
  bind (bind m k) k' = bind m (fun a => bind (k a) k').
Proof.
  destruct m as [o [a | e]]; simpl; [| reflexivity].
  destruct (k a) as [o1 [b | e1]]; simpl; [| reflexivity].
  destruct (k' b) as [o2 r]. rewrite app_assoc. reflexivity.
Qed.


(** ** [_create_enid] *)

(** C1, at the link of the docstring of [_create_enid], which says that
    [B004TP29C44063] is returned: the call of [urllib.parse] raises
    [TypeError] and nothing is returned. *)
Lemma create_enid_docstring_example :
  _create_enid "kindle://book?action=open&asin=B004TP29C4&location=4063"
  = raise (TypeError "'module' object is not callable").
Proof. reflexivity. Qed.

(** C4.  [_create_enid] fails on every link, with the [TypeError] of the
    call of [urllib.parse]: also on a link that holds both [asin] and
    [location], and with the same exception as on one that holds
    neither. *)
Theorem create_enid_raises_on_every_link (huri : string) :
  _create_enid huri = raise (TypeError "'module' object is not callable").
Proof. unfold _create_enid, urllib.parse. apply bind_raise. Qed.

(** ** [_parse_books] *)

Section ParseBooks.

(** After [k] rounds of the first loop the first [k] lines are rewritten
    and the others are as they were. *)
Lemma add_hierarchy_rounds (markup : list string) (k : nat) :
  k <= List.length markup ->
  fold_left add_hierarchy_step (seq 0 k) markup
  = (map rewrite_line (take k markup) ++ drop k markup)%list.
Proof.
  induction k as [| k IH]; intros Hk.
  - simpl. rewrite drop_0. reflexivity.
  - rewrite seq_S, fold_left_app, IH by lia. simpl.
    destruct (lookup_lt_is_Some_2 markup k ltac:(lia)) as [line Hline].
    assert (Hlen : List.length (map rewrite_line (take k markup)) = k)
      by (rewrite length_map, length_take; lia).
    unfold add_hierarchy_step.
    rewrite lookup_app_r by lia. rewrite Hlen, Nat.sub_diag.
    rewrite (drop_S _ _ _ Hline). cbn [lookup list_lookup].
    rewrite (take_S_r _ _ _ Hline), map_app, <- app_assoc. cbn [map app].
    destruct (Str.contains book_header line) eqn:Hc.
    + rewrite insert_app_r_alt by lia. rewrite Hlen, Nat.sub_diag.
      unfold rewrite_line. rewrite Hc. reflexivity.
    + unfold rewrite_line. rewrite Hc. reflexivity.
Qed.

(** The attribute lookup ends the method, with or without a handler for
    [StopIteration] around it. *)
Lemma generator_dot_next_uncaught {A} (p : A -> bool) (ls : list A) (h : M nat) :
  except_StopIteration (generator_dot_next p ls) h = raise generator_has_no_next.
Proof. reflexivity. Qed.

End ParseBooks.

(** C2, at a page without the marker [<div id="allHighlightedBooks">]:
    [_parse_books] raises the [AttributeError] of the generator's missing
    [next], not the [StopIteration] its handler waits for, and prints
    nothing; [_get_all_highlights] ends with the same exception, so
    nothing is extracted and no record is returned. *)
Lemma parse_books_without_marker :
  existsb (Str.contains all_books_div) (Str.split newline not_an_export) = false /\
  _parse_books not_an_export
  = ([], Raise (AttributeError "'generator' object has no attribute 'next'")) /\
  _get_all_highlights HTMLParser.parse (one_file not_an_export) "myhighlights.html"
  = ([], Raise (AttributeError "'generator' object has no attribute 'next'")).
Proof. repeat split. Qed.

(** C5, at an input whose only line holds the marker and closes two
    [div]s: [_parse_books] raises before the line that removes [</div>]
    is reached, and returns no text. *)
Lemma parse_books_removes_no_closing_tag :
  Str.split newline two_closing_tags = [two_closing_tags] /\
  Str.contains all_books_div two_closing_tags = true /\
  _parse_books two_closing_tags
  = raise (AttributeError "'generator' object has no attribute 'next'").
Proof. repeat split. Qed.

(** C6, at an export that is already normalized: [_parse_books] raises
    and gives no output in which a highlight could belong to a book. *)
Lemma parse_books_again_raises :
  _parse_books normalized_two_books
  = raise (AttributeError "'generator' object has no attribute 'next'").
Proof. reflexivity. Qed.

(** ** Further properties of [_parse_books] *)

(** X1.  The first loop, which assigns [markup[i]] while it enumerates
    [markup], rewrites every line on its own: a line with the book header
    gets [</div>] in front and the opening of the highlight column
    behind, any other line stays as it is. *)
Theorem first_loop_rewrites_each_line (markup : list string) :
  add_hierarchy markup = map rewrite_line markup.
Proof.
  unfold add_hierarchy. rewrite add_hierarchy_rounds by lia.
  rewrite firstn_all, drop_all, app_nil_r. reflexivity.
Qed.

(** X7.  [_parse_books] never returns and never prints: on every input,
    with the marker or without it, it raises the [AttributeError] of the
    generator's missing [next] once the first loop is done.  The handler
    for [StopIteration] and its message are never reached, and neither
    are the removal of [</div>] and the joining of the lines. *)
Theorem parse_books_always_raises (html : string) :
  _parse_books html
  = ([], Raise (AttributeError "'generator' object has no attribute 'next'")).
Proof.
  unfold _parse_books. cbv zeta.
  rewrite generator_dot_next_uncaught. apply bind_raise.
Qed.

(** ** [_extract_highlights] *)

Section Loops.

Context {A S : Type} (body : A -> S -> M S).

Lemma for_each_app (xs ys : list A) (s : S) :
  for_each (xs ++ ys)%list body s
  = (s' <- for_each xs body s ;; for_each ys body s').
Proof.
  revert s. induction xs as [| x xs IH]; intros s; cbn [app for_each].
  - rewrite bind_ret_l. reflexivity.
  - rewrite bind_assoc. apply bind_ext. intros s'. apply IH.
Qed.

Lemma for_each_raises_at (xs ys : list A) (x : A) (s s' : S) (e : exn) :
  for_each xs body s = ret s' -> body x s' = raise e ->
  for_each (xs ++ x :: ys)%list body s = raise e.
Proof.
  intros Hxs Hx. rewrite for_each_app, Hxs, bind_ret_l. cbn [for_each].
  rewrite Hx. reflexivity.
Qed.

End Loops.




(** *** The loops of [KindleHighlights] itself *)


Lemma highlight_entry_linked title author h l :
  href_of_next h = ret l -> highlight_entry title author h = raise module_not_callable.
Proof. intros Hl. unfold highlight_entry. rewrite Hl, !bind_ret_l. reflexivity. Qed.

(** A book passes when it has no highlight, and leaves the list as it
    is. *)
Lemma extract_book_without_highlights book acc :
  without_highlights book -> extract_book book acc = ret acc.
Proof.
  intros ([t Ht] & [a Ha] & Hhs). unfold extract_book.
  rewrite Ht, Ha, !bind_ret_l, Hhs. reflexivity.
Qed.


Lemma for_books_without_highlights books acc :
  Forall without_highlights books -> for_each books extract_book acc = ret acc.
Proof.
  induction 1 as [| b books Hb _ IH]; cbn [for_each]; [reflexivity |].
  rewrite (extract_book_without_highlights _ _ Hb), bind_ret_l. exact IH.
Qed.


(** *** The loops for any method bound to [self._create_enid] *)

Section InheritedLoops.

Variable create_enid : string -> M string.







End InheritedLoops.

(** [KindleHighlights] runs the inherited loops with its own
    [_create_enid]. *)
Lemma extract_highlights_own html_parser html :
  _extract_highlights html_parser html
  = _extract_highlights_with _create_enid html_parser html.
Proof. reflexivity. Qed.

(** C7, at a document with the books [B1], with the highlights [h1] and
    [h2], and [B2], with the highlight [h3], every highlight followed by
    its link: the extraction raises the [TypeError] of [_create_enid] at
    [h1] and returns no record. *)
Lemma extract_two_books_raises :
  map (fun book => List.length (find_all "span" "highlight" (elem book)))
    (find_all "div" "bookMain" (BeautifulSoup HTMLParser.parse normalized_two_books))
  = [2; 1] /\
  _extract_highlights HTMLParser.parse normalized_two_books
  = raise (TypeError "'module' object is not callable").
Proof. split; vm_compute; reflexivity. Qed.



(** C3 (as amended).  When a book element has no title element or no
    author element, [_extract_highlights] raises and returns no record at
    all.  The exception is the one of the first element that fails: when
    the books before this one are extracted, it is the [AttributeError] of
    a [None], which holds neither the book nor its position. *)
Theorem extract_missing_title_or_author
    (html_parser : string -> list PageElement) (html : string)
    (before after : list Located) (book : Located) :
  find_all "div" "bookMain" (BeautifulSoup html_parser html)
  = (before ++ book :: after)%list ->
  find "span" "title" (elem book) = None \/
  find "span" "author" (elem book) = None ->
  exists e,
    result (_extract_highlights html_parser html) = Raise e /\
    (forall acc, result (for_each before extract_book []) = Return acc ->
                 e = no_attribute "NoneType" "string" \/
                 e = no_attribute "NoneType" "strip").
Proof.
  intros Hbooks Hmissing. unfold _extract_highlights.
  rewrite Hbooks, for_each_app.
  assert (Hbook : forall acc, exists attr,
             extract_book book acc = raise (no_attribute "NoneType" attr) /\
             (attr = "string" \/ attr = "strip")).
  { intros acc. unfold extract_book, title_of, author_of.
    destruct Hmissing as [-> | Ha].
    - exists "string". auto.
    - destruct (find "span" "title" (elem book)) as [t |]; [| exists "string"; auto].
      destruct (string_of (elem t)); [| exists "strip"; auto].
      rewrite Ha. exists "string". auto. }
  destruct (for_each before extract_book []) as [o [acc | e]].
  - destruct (Hbook acc) as (attr & He & Hattr).
    exists (no_attribute "NoneType" attr). cbn [for_each bind].
    rewrite He. simpl. split; [reflexivity |].
    intros _ _. destruct Hattr as [-> | ->]; auto.
  - exists e. simpl. split; [reflexivity | discriminate].
Qed.

(** An export whose second book has no title. *)
Lemma extract_missing_title_run :
  exists e,
    result (_extract_highlights HTMLParser.parse untitled_second) = Raise e /\
    (e = no_attribute "NoneType" "string" \/ e = no_attribute "NoneType" "strip").
Proof.
  let books := eval vm_compute in
      (find_all "div" "bookMain" (BeautifulSoup HTMLParser.parse untitled_second)) in
  match books with
  | [?B1; ?B2] =>
      destruct (extract_missing_title_or_author
                  HTMLParser.parse untitled_second [B1] [] B2)
        as (e & He & Hattr);
      [ vm_compute; reflexivity
      | left; vm_compute; reflexivity
      | exists e; split; [exact He | apply (Hattr []); vm_compute; reflexivity] ]
  end.
Defined.

(** C3 (as stated) fails: the exception is the same, word for word,
    whether the book without a title is the first or the second. *)
Lemma missing_title_error_names_no_book :
  _extract_highlights HTMLParser.parse untitled_first
  = raise (AttributeError "'NoneType' object has no attribute 'string'") /\
  _extract_highlights HTMLParser.parse untitled_second
  = raise (AttributeError "'NoneType' object has no attribute 'string'").
Proof. split; vm_compute; reflexivity. Qed.

(** C8, at a book whose first highlight has no text node and whose second
    holds a single blank, each followed by its link: the extraction
    fails, with the [TypeError] of [_create_enid] at the first highlight,
    and no record is produced. *)
Lemma extract_blank_highlights_raises :
  map (fun h => string_of (elem h))
    (concat (map (fun book => find_all "span" "highlight" (elem book))
               (find_all "div" "bookMain"
                  (BeautifulSoup HTMLParser.parse blank_highlights))))
  = [None; Some " "] /\
  _extract_highlights HTMLParser.parse blank_highlights
  = raise (TypeError "'module' object is not callable").
Proof. split; vm_compute; reflexivity. Qed.

(** C9, at the example of the specification and at a name that holds
    [by]: every [by] is deleted, not the leading one only. *)
Lemma author_text_deletes_every_by :
  author_text "by  Jane Doe " = "Jane Doe" /\
  author_text "by Ruby Doe" = "Ru Doe".
Proof. split; reflexivity. Qed.

(** ** Further properties of [_extract_highlights] *)


(** X21.  The first highlight that is followed by a link ends the
    extraction: when the books before have no highlights and the book has
    a title and an author, the [TypeError] of [_create_enid] is raised at
    the book's first highlight, whatever the link is. *)
Theorem extract_raises_at_first_linked_highlight
    (html_parser : string -> list PageElement) (html : string)
    (before after : list Located) (book : Located)
    (title author : string) (h : Located) (hs : list Located) (l : string) :
  find_all "div" "bookMain" (BeautifulSoup html_parser html)
  = (before ++ book :: after)%list ->
  Forall without_highlights before ->
  title_of (elem book) = ret title ->
  author_of (elem book) = ret author ->
  find_all "span" "highlight" (elem book) = h :: hs ->
  href_of_next h = ret l ->
  _extract_highlights html_parser html
  = raise (TypeError "'module' object is not callable").
Proof.
  intros Hbooks Hbefore Ht Ha Hhs Hl.
  unfold _extract_highlights. rewrite Hbooks.
  apply (for_each_raises_at _ _ _ _ _ []);
    [apply for_books_without_highlights, Hbefore |].
  unfold extract_book. rewrite Ht, Ha, !bind_ret_l, Hhs. cbn [for_each].
  rewrite (highlight_entry_linked _ _ _ _ Hl). reflexivity.
Qed.

(** The export with two books: the first highlight of the first book. *)
Lemma extract_raises_at_first_linked_highlight_run :
  _extract_highlights HTMLParser.parse normalized_two_books
  = raise (TypeError "'module' object is not callable").
Proof.
  let books := eval vm_compute in
      (find_all "div" "bookMain" (BeautifulSoup HTMLParser.parse normalized_two_books)) in
  match books with
  | [?B1; ?B2] =>
      let hs := eval vm_compute in (find_all "span" "highlight" (elem B1)) in
      match hs with
      | [?h1; ?h2] =>
          apply (extract_raises_at_first_linked_highlight
                   HTMLParser.parse normalized_two_books [] [B2] B1
                   "T1" "A1" h1 [h2] (kindle_link "B1" "1"))
      end
  end.
  - vm_compute. reflexivity.
  - constructor.
  - vm_compute. reflexivity.
  - vm_compute. reflexivity.
  - vm_compute. reflexivity.
  - vm_compute. reflexivity.
Defined.

(** X10.  A first highlight that is not followed by a link ends the
    extraction with the exception of the failed lookup: [AttributeError]
    when the highlight is the last child or a text node follows it,
    [KeyError] when the tag that follows has no [href]. *)
Theorem extract_fails_at_highlight_without_link
    (html_parser : string -> list PageElement) (html : string)
    (before after : list Located) (book : Located)
    (title author : string) (h : Located) (hs : list Located) (e : exn) :
  find_all "div" "bookMain" (BeautifulSoup html_parser html)
  = (before ++ book :: after)%list ->
  Forall without_highlights before ->
  title_of (elem book) = ret title ->
  author_of (elem book) = ret author ->
  find_all "span" "highlight" (elem book) = h :: hs ->
  (nextSibling h = None /\ e = no_attribute "NoneType" "attrs") \/
  (exists s, nextSibling h = Some (NavigableString s) /\
             e = no_attribute "NavigableString" "attrs") \/
  (exists name attrs contents,
      nextSibling h = Some (Tag name attrs contents) /\
      attr_get "href" attrs = None /\ e = KeyError "href") ->
  _extract_highlights html_parser html = raise e.
Proof.
  intros Hbooks Hbefore Ht Ha Hhs Hh.
  unfold _extract_highlights. rewrite Hbooks.
  apply (for_each_raises_at _ _ _ _ _ []);
    [apply for_books_without_highlights, Hbefore |].
  unfold extract_book. rewrite Ht, Ha, !bind_ret_l, Hhs. cbn [for_each].
  unfold highlight_entry, href_of_next.
  destruct Hh as [[-> ->] | [(s & -> & ->) | (n & attrs & cs & -> & -> & ->)]];
    reflexivity.
Qed.

(** The only highlight of the second book is its last child. *)
Lemma extract_fails_at_highlight_without_link_run :
  _extract_highlights HTMLParser.parse highlight_without_link
  = raise (no_attribute "NoneType" "attrs").
Proof.
  let books := eval vm_compute in
      (find_all "div" "bookMain" (BeautifulSoup HTMLParser.parse highlight_without_link)) in
  match books with
  | [?B1; ?B2] =>
      let hs := eval vm_compute in (find_all "span" "highlight" (elem B2)) in
      match hs with
      | [?h1] =>
          apply (extract_fails_at_highlight_without_link
                   HTMLParser.parse highlight_without_link [B1] [] B2
                   "T2" "A2" h1 [])
      end
  end.
  - vm_compute. reflexivity.
  - constructor; [| constructor].
    split; [exists "T1" | split; [exists "A1" |]]; vm_compute; reflexivity.
  - vm_compute. reflexivity.
  - vm_compute. reflexivity.
  - vm_compute. reflexivity.
  - left. split; reflexivity.
Defined.


(** The export with two books, under a method that takes the link as the
    identifier: the records of [h1], [h2] and [h3], in this order. *)
Lemma inherited_extraction_two_books :
  _extract_highlights_with link_as_id HTMLParser.parse normalized_two_books
  = ret [entry "T1" "A1" "h1" "B1" "1"; entry "T1" "A1" "h2" "B1" "2";
         entry "T2" "A2" "h3" "B2" "3"].
Proof. vm_compute. reflexivity. Qed.



(** ** Titles and authors are trimmed *)

Section Trimmed.
Import Str.

Lemma rstrip_head c s :
  isspace c = false -> exists r, rstrip (String c s) = String c r.
Proof. intros Hc. simpl. rewrite Hc. destruct (rstrip s); eauto. Qed.

Lemma rstrip_last s c : last_char (rstrip s) = Some c -> isspace c = false.
Proof.
  induction s as [| a s IH]; [discriminate |].
  cbn [rstrip]. destruct (rstrip s) as [| b r] eqn:E.
  - destruct (isspace a) eqn:Ha; [discriminate |].
    intros [= <-]. exact Ha.
  - intros H. apply IH. exact H.
Qed.

Lemma lstrip_head s :
  lstrip s = EmptyString \/ exists c r, lstrip s = String c r /\ isspace c = false.
Proof.
  induction s as [| c s IH]; simpl; [auto |].
  destruct (isspace c) eqn:Hc; [exact IH | eauto].
Qed.

Lemma strip_trimmed s : trimmed (strip s).
Proof.
  unfold strip. split; [| intros c; apply rstrip_last].
  intros c. destruct (lstrip_head s) as [-> | (b & r & -> & Hb)]; [discriminate |].
  destruct (rstrip_head b r Hb) as [r' ->]. intros [= <-]. exact Hb.
Qed.

(** Deleting a pattern that does not occur changes nothing. *)
Lemma replace_absent old new s :
  contains old s = false -> replace old new s = s.
Proof.
  unfold replace. induction s as [| c s IH]; [reflexivity |].
  cbn [contains replace_from]. intros [H1 H2]%orb_false_elim.
  rewrite H1, (IH H2). reflexivity.
Qed.

End Trimmed.

(** X11.  The title and the author read from a book element neither
    start nor end with white space. *)
Theorem title_and_author_are_trimmed (book : PageElement) (title author : string) :
  title_of book = ret title -> author_of book = ret author ->
  trimmed title /\ trimmed author.
Proof.
  unfold title_of, author_of, author_text.
  destruct (find "span" "title" book) as [x |]; [| discriminate].
  destruct (string_of (elem x)); [| discriminate].
  destruct (find "span" "author" book) as [y |]; [| discriminate].
  destruct (string_of (elem y)); [| discriminate].
  intros [= <-] [= <-]. split; apply strip_trimmed.
Qed.

(** A book element whose title and author stand between blanks. *)
Lemma title_and_author_are_trimmed_run : trimmed "T 1" /\ trimmed "Jane Doe".
Proof.
  apply (title_and_author_are_trimmed
           (Tag "div" [("class", "bookMain")]
              [Tag "span" [("class", "title")] [NavigableString "  T 1 "];
               Tag "span" [("class", "author")] [NavigableString " by Jane Doe  "]])
           "T 1" "Jane Doe"); reflexivity.
Defined.

(** X12.  When [by] occurs only at the very start of the author text,
    the author recorded is the rest of the text, trimmed; when it does
    not occur at all, the whole text, trimmed. *)
Theorem author_text_without_by_inside (rest : string) :
  Str.contains "by" rest = false ->
  author_text ("by" ++ rest) = Str.strip rest /\ author_text rest = Str.strip rest.
Proof.
  intros H. unfold author_text. split.
  - change (Str.replace "by" "" ("by" ++ rest)) with (Str.replace "by" "" rest).
    rewrite (replace_absent _ _ _ H). reflexivity.
  - rewrite (replace_absent _ _ _ H). reflexivity.
Qed.

(** The author text of the specification's example. *)
Lemma author_text_without_by_inside_run :
  author_text ("by" ++ "  Jane Doe ") = Str.strip "  Jane Doe " /\
  author_text "  Jane Doe " = Str.strip "  Jane Doe ".
Proof. apply (author_text_without_by_inside "  Jane Doe "). reflexivity. Defined.

(** ** [_get_all_highlights] *)

(** X13.  [_get_all_highlights] never returns and prints nothing: it ends
    with the exception of [open] or [read] when the file cannot be read,
    and with the [AttributeError] of [_parse_books] otherwise, whatever
    the file holds.  The parser is never run. *)
Theorem get_all_highlights_never_returns
    (html_parser : string -> list PageElement) (files : string -> outcome string)
    (html_file : string) :
  _get_all_highlights html_parser files html_file
  = match files html_file with
    | Return doc => raise (AttributeError "'generator' object has no attribute 'next'")
    | Raise e => raise e
    end.
Proof.
  unfold _get_all_highlights, open_read.
  destruct (files html_file) as [doc | e]; [| reflexivity].
  rewrite bind_ret_l. reflexivity.
Qed.

(** ** The object and [main] *)

Lemma get_all_highlights_reads_one_file
    (html_parser : string -> list PageElement) (files files' : string -> outcome string)
    (html_file : string) :
  files html_file = files' html_file ->
  _get_all_highlights html_parser files html_file
  = _get_all_highlights html_parser files' html_file.
Proof. intros H. unfold _get_all_highlights, open_read. rewrite H. reflexivity. Qed.

(** X14.  [main] looks at two files only, and of the token only how
    reading it ends: with the same export under the name it reads, and a
    token file that can be read in both cases or fails the same way in
    both, it does the same, whatever the token and whatever else the file
    system holds. *)
Theorem main_never_uses_the_token
    (html_parser : string -> list PageElement) (files files' : string -> outcome string) :
  same_ending (files "en_auth.txt") (files' "en_auth.txt") ->
  files "https://read.amazon.com/notebook" = files' "https://read.amazon.com/notebook" ->
  main html_parser files = main html_parser files'.
Proof.
  intros Htoken Hdoc. unfold main, __init__, open_read.
  rewrite (get_all_highlights_reads_one_file html_parser files files' _ Hdoc).
  destruct (files "en_auth.txt") as [t | e], (files' "en_auth.txt") as [t' | e'];
    simpl in Htoken; try contradiction; [reflexivity |].
  subst e'. reflexivity.
Qed.

(** Two tokens, the same export. *)
Lemma main_never_uses_the_token_run :
  main HTMLParser.parse (two_files "token-1" normalized_two_books)
  = main HTMLParser.parse (two_files "token-2" normalized_two_books).
Proof.
  apply (main_never_uses_the_token HTMLParser.parse
           (two_files "token-1" normalized_two_books)
           (two_files "token-2" normalized_two_books)).
  - exact I.
  - reflexivity.
Defined.

(** X15.  [main] never returns normally: it ends with the exception of
    reading the token file, else with that of reading the file it takes
    for the export, else with the [AttributeError] of [_parse_books].  It
    prints nothing and never reaches the call on the logger, and no
    object is built. *)
Theorem main_never_returns
    (html_parser : string -> list PageElement) (files : string -> outcome string) :
  main html_parser files
  = match files "en_auth.txt" with
    | Raise e => ([], Raise e)
    | Return token =>
        match files "https://read.amazon.com/notebook" with
        | Raise e => ([], Raise e)
        | Return doc =>
            ([], Raise (AttributeError "'generator' object has no attribute 'next'"))
        end
    end.
Proof.
  unfold main, __init__, _get_all_highlights, open_read.
  destruct (files "en_auth.txt") as [token | e]; [| reflexivity].
  destruct (files "https://read.amazon.com/notebook") as [doc | e]; reflexivity.
Qed.


(** ** [now_plus_seconds] *)

Section Clock.
Import datetime.
Local Open Scope Z_scope.

Lemma read_digit_digit k : 0 <= k <= 9 -> read_digit (digit k) = Some k.
Proof.
  intros H.
  assert (Hk : k = 0 \/ k = 1 \/ k = 2 \/ k = 3 \/ k = 4 \/ k = 5 \/ k = 6 \/
               k = 7 \/ k = 8 \/ k = 9) by lia.
  repeat (destruct Hk as [-> | Hk]; [reflexivity |]). subst k. reflexivity.
Qed.

(** A clock text read back. *)
Lemma read_clock_HMS h m s :
  0 <= h < 24 -> 0 <= m < 60 -> 0 <= s < 60 ->
  read_clock (two_digits h ++ ":" ++ two_digits m ++ ":" ++ two_digits s)%string
  = Some (h * 3600 + m * 60 + s).
Proof.
  intros Hh Hm Hs. unfold two_digits. cbn [append read_clock].
  rewrite !read_digit_digit by (Z.div_mod_to_equations; lia).
  f_equal. Z.div_mod_to_equations. lia.
Qed.

(** What [now_plus_seconds] returns when it returns: the clock text of
    the seconds since midnight, [seconds] later, modulo one day. *)
Lemma now_plus_seconds_returns now seconds str :
  valid_datetime now ->
  now_plus_seconds now seconds = inr str ->
  let t := (time_of_day now + seconds) mod 86400 in
  str = (two_digits (t / 3600) ++ ":" ++ two_digits (t mod 3600 / 60) ++ ":"
         ++ two_digits (t mod 3600 mod 60))%string.
Proof.
  intros Hv. unfold now_plus_seconds, timedelta, add, time_of_day.
  destruct (999999999 <? Z.abs (seconds / 86400)); [discriminate |].
  destruct ((1 <=? _) && (_ <=? MAXORDINAL))%bool; [| discriminate].
  intros [= <-]. unfold strftime_HMS. cbn [hour minute second]. cbv zeta.
  rewrite Z.add_mod_idemp_r by lia. reflexivity.
Qed.

End Clock.

(** X17.  The text [now_plus_seconds] returns is a clock time
    [HH:MM:SS]: read back, it is the time of day of the clock plus
    [seconds], counted modulo one day (past midnight it starts again at
    [00:00:00], and a negative [seconds] goes back). *)
Theorem now_plus_seconds_is_the_clock_later
    (now : datetime.datetime) (seconds : Z) (str : string) :
  valid_datetime now ->
  now_plus_seconds now seconds = inr str ->
  read_clock str = Some ((time_of_day now + seconds) mod 86400)%Z.
Proof.
  intros Hv H. rewrite (now_plus_seconds_returns _ _ _ Hv H). cbv zeta.
  set (t := ((time_of_day now + seconds) mod 86400)%Z).
  assert (Ht : (0 <= t < 86400)%Z) by (apply Z.mod_pos_bound; lia).
  rewrite read_clock_HMS by (Z.div_mod_to_equations; lia).
  f_equal. Z.div_mod_to_equations. lia.
Qed.

(** Ten seconds after 23:59:55 it is 00:00:05. *)
Lemma now_plus_seconds_is_the_clock_later_run :
  read_clock "00:00:05" = Some ((time_of_day late_evening + 10) mod 86400)%Z.
Proof.
  apply (now_plus_seconds_is_the_clock_later late_evening 10 "00:00:05").
  - unfold valid_datetime, late_evening, datetime.MAXORDINAL. simpl. lia.
  - reflexivity.
Defined.



(** X19.  [now_plus_seconds] fails, with [OverflowError], exactly when
    [seconds] is more than 999999999 days either way, or when the day
    reached lies before the first or after the last day of the
    calendar; in particular never for less than a day on a clock that
    is on neither of these two days. *)
Theorem now_plus_seconds_returns_iff (now : datetime.datetime) (seconds : Z) :
  valid_datetime now ->
  ((exists str, now_plus_seconds now seconds = inr str)
   <-> (Z.abs (seconds / 86400) <= 999999999 /\
        1 <= datetime.ordinal now + (time_of_day now + seconds) / 86400
          <= datetime.MAXORDINAL)%Z) /\
  ((1 < datetime.ordinal now < datetime.MAXORDINAL)%Z ->
   (Z.abs seconds <= 86400)%Z ->
   exists str, now_plus_seconds now seconds = inr str).
Proof.
  intros Hv.
  assert (Hday : (datetime.ordinal now + seconds / 86400
                  + (datetime.hour now * 3600 + datetime.minute now * 60
                     + datetime.second now + seconds mod 86400) / 86400
                  = datetime.ordinal now + (time_of_day now + seconds) / 86400)%Z).
  { unfold time_of_day. Z.div_mod_to_equations. lia. }
  assert (Hiff : (exists str, now_plus_seconds now seconds = inr str)
                 <-> (Z.abs (seconds / 86400) <= 999999999 /\
                      1 <= datetime.ordinal now + (time_of_day now + seconds) / 86400
                        <= datetime.MAXORDINAL)%Z).
  { unfold now_plus_seconds, datetime.timedelta.
    destruct (Z.ltb_spec 999999999 (Z.abs (seconds / 86400))) as [Hd | Hd].
    - split; [intros [str [=]] | lia].
    - unfold datetime.add. cbv zeta. rewrite Hday.
      destruct (Z.leb_spec 1 (datetime.ordinal now + (time_of_day now + seconds) / 86400))
        as [H1 | H1];
      destruct (Z.leb_spec (datetime.ordinal now + (time_of_day now + seconds) / 86400)
                  datetime.MAXORDINAL) as [H2 | H2]; cbn [andb];
        (split; [intros [str H]; try discriminate; auto | intros; try lia; eauto]). }
  split; [exact Hiff |].
  intros Hord Hs. apply Hiff.
  unfold valid_datetime, time_of_day in *. unfold datetime.MAXORDINAL in *.
  Z.div_mod_to_equations. lia.
Qed.

(** One day before five seconds to midnight. *)
Lemma now_plus_seconds_returns_iff_run :
  exists str, now_plus_seconds late_evening (-86400) = inr str.
Proof.
  apply (now_plus_seconds_returns_iff late_evening (-86400)).
  - unfold valid_datetime, late_evening, datetime.MAXORDINAL. simpl. lia.
  - unfold late_evening, datetime.MAXORDINAL. simpl. lia.
  - simpl. lia.
Defined.
